(** * skills/cryptocompare/fetch_news.py

    A shallow embedding of the CryptoCompare news tool
    ([CryptoCompareFetchNews._arun]) and the properties its specification
    states about it.

    The tool is one coroutine: resolve the agent context, ask the rate
    limiter, read the clock, call the remote API, check the shape of the
    answer, map every element of ["Data"] to a [NewsArticle], and turn every
    [Exception] into the [error] field of the output.  The embedding keeps
    this shape: Python values are an inductive type, exceptions are data,
    the awaited collaborators are the fields of two records, and the body
    of [_arun] is written in a small monad that threads the log of the calls
    made to the collaborators and the pending exception. *)

From Stdlib Require Import String Ascii List ZArith QArith Bool Lia DecimalString.
Import ListNotations.

Local Open Scope string_scope.
Local Open Scope list_scope.
Local Open Scope Z_scope.

Set Warnings "-register-all".

(** ** Python values

    What [response.json()] can hand back, and what the tool then inspects:
    the JSON fragment of Python's values.  A [dict] keeps its insertion
    order, so it is an association list; [lookup] takes the first binding
    of a key. *)

Inductive pyval : Type :=
| PNone
| PBool (b : bool)
| PInt (z : Z)
| PFloat (q : Q)
| PStr (s : string)
| PList (items : list pyval)
| PDict (entries : list (string * pyval)).

Fixpoint lookup (key : string) (entries : list (string * pyval)) : option pyval :=
  match entries with
  | [] => None
  | (k, v) :: rest => if String.eqb k key then Some v else lookup key rest
  end.

(** ** Exceptions

    The exceptions the body of [_arun] can raise by itself, and [Raised]
    for whatever a collaborator raises.  [except Exception] (line 106)
    selects by class, so a raised object records whether its class derives
    from [Exception] or from [BaseException] only (as
    [asyncio.CancelledError], [KeyboardInterrupt] and [SystemExit] do). *)

Inductive type_error : Type :=
| NotAContainer (v : pyval)              (* "Data" in v *)
| NotSubscriptable (v : pyval) (key : string) (* v[key] *)
| NotIterable (v : pyval).               (* for ... in v *)

Inductive exn_base : Type :=
| FromException
| FromBaseExceptionOnly.

Inductive exn : Type :=
| KeyError (key : string)
| TypeError (why : type_error)
| AttributeError (obj : pyval) (attr : string)
| ValidationError (model : string) (fields : list string)
| Raised (base : exn_base) (text : string).

Definition isinstance_Exception (e : exn) : bool :=
  match e with
  | Raised FromBaseExceptionOnly _ => false
  | _ => true
  end.

(** ** Fallible computations *)

Inductive result (A : Type) : Type :=
| Ok (a : A)
| Err (e : exn).

Arguments Ok {A} a.
Arguments Err {A} e.

Definition rbind {A B : Type} (r : result A) (k : A -> result B) : result B :=
  match r with
  | Ok a => k a
  | Err e => Err e
  end.

Declare Scope result_scope.
Delimit Scope result_scope with result.

Notation "x <- r ;; k" := (rbind r (fun x => k))
  (at level 100, r at next level, right associativity) : result_scope.

(** A list comprehension whose element expression can raise: the elements
    are evaluated from left to right and the first exception ends it. *)
Fixpoint comprehension {A B : Type} (f : A -> result B) (l : list A)
  : result (list B) :=
  match l with
  | [] => Ok []
  | a :: rest =>
      match f a with
      | Err e => Err e
      | Ok b =>
          match comprehension f rest with
          | Err e => Err e
          | Ok bs => Ok (b :: bs)
          end
      end
  end.

(** ** The operations of the interpreter that the tool uses *)

Fixpoint chars (s : string) : list pyval :=
  match s with
  | EmptyString => []
  | String c rest => PStr (String c EmptyString) :: chars rest
  end.

Fixpoint substring_of (needle s : string) : bool :=
  if String.prefix needle s then true
  else match s with
       | EmptyString => false
       | String _ rest => substring_of needle rest
       end.

Definition eq_str (key : string) (v : pyval) : bool :=
  match v with
  | PStr s => String.eqb key s
  | _ => false
  end.

(** [key in v] for a string [key]: a key of a dict, an element of a list, a
    substring of a string; the other values are no containers. *)
Definition py_in (key : string) (v : pyval) : result bool :=
  match v with
  | PDict entries =>
      Ok (match lookup key entries with Some _ => true | None => false end)
  | PList items => Ok (existsb (eq_str key) items)
  | PStr s => Ok (substring_of key s)
  | _ => Err (TypeError (NotAContainer v))
  end.

(** [v[key]] for a string [key]: only a dict can be indexed by a string. *)
Definition py_getitem (v : pyval) (key : string) : result pyval :=
  match v with
  | PDict entries =>
      match lookup key entries with
      | Some x => Ok x
      | None => Err (KeyError key)
      end
  | _ => Err (TypeError (NotSubscriptable v key))
  end.

(** [iter(v)]: the elements of a list, the keys of a dict, the characters of
    a string. *)
Definition py_iter (v : pyval) : result (list pyval) :=
  match v with
  | PList items => Ok items
  | PDict entries => Ok (map (fun kv => PStr (fst kv)) entries)
  | PStr s => Ok (chars s)
  | _ => Err (TypeError (NotIterable v))
  end.

(** [v.get(key)]: of the values here only a dict has the method. *)
Definition py_get (v : pyval) (key : string) : result pyval :=
  match v with
  | PDict entries =>
      Ok (match lookup key entries with Some x => x | None => PNone end)
  | _ => Err (AttributeError v "get")
  end.

(** [s.split(sep)] for a separator of one character.  [piece] collects the
    characters of the current piece in reverse. *)
Fixpoint rev_string (acc : string) (s : string) : string :=
  match s with
  | EmptyString => acc
  | String c rest => rev_string (String c acc) rest
  end.

Fixpoint split_from (sep : ascii) (piece : string) (s : string) : list string :=
  match s with
  | EmptyString => [rev_string EmptyString piece]
  | String c rest =>
      if Ascii.eqb c sep
      then rev_string EmptyString piece :: split_from sep EmptyString rest
      else split_from sep (String c piece) rest
  end.

Definition split (sep : ascii) (s : string) : list string :=
  split_from sep EmptyString s.

(** [v.split("|")]: of the values here only a string has the method. *)
Definition py_split (v : pyval) (sep : ascii) : result (list string) :=
  match v with
  | PStr s => Ok (split sep s)
  | _ => Err (AttributeError v "split")
  end.

(** [int(x)] of a float truncates towards zero. *)
Definition py_int (x : Q) : Z := Z.quot (Qnum x) (Zpos (Qden x)).

(** ** The data model (lines 19-37) *)

Record NewsArticle : Type := mkNewsArticle {
  id : string;
  title : string;
  body : string;
  published_at : Z;
  url : string;
  source : string;
  categories : list string
}.

(** [articles] defaults to the empty list and [error] to [None]. *)
Record CryptoCompareFetchNewsOutput : Type := mkOutput {
  articles : list NewsArticle;
  error : option string
}.

Definition Output_error (msg : string) : CryptoCompareFetchNewsOutput :=
  {| articles := []; error := Some msg |}.

Definition Output_articles (l : list NewsArticle) : CryptoCompareFetchNewsOutput :=
  {| articles := l; error := None |}.

(** ** What the tool is given

    The agent context, as far as the tool reads it: [context.agent.id], a
    string or [None], and [context.config]. *)

Module Agent.
Record t : Type := mk { id : option string }.
End Agent.

Record SkillContext : Type := mkSkillContext {
  agent : Agent.t;
  config : pyval
}.

(** The part of the interpreter and of pydantic that is fixed by neither the
    tool nor its inputs: how a float or a container prints, how an exception
    prints, and which raw values the validators of a [str] and of an [int]
    field accept. *)
Class Runtime : Type := {
  repr : pyval -> string;
  str_exn : exn -> string;
  validate_str : pyval -> option string;
  validate_int : pyval -> option Z
}.

(** Every version of pydantic takes a [str] for a [str] field and an [int]
    for an [int] field, unchanged. *)
Definition accepts_declared_types (R : Runtime) : Prop :=
  (forall s, validate_str (PStr s) = Some s) /\
  (forall z, validate_int (PInt z) = Some z).

(** The methods [_arun] calls on [self]; both belong to the base class
    [CryptoCompareBaseTool], whose code is in another file.  Their
    signatures are those of the specification (sections 1 and 6): the
    context may be absent, and the limiter takes an identity or [None] and
    answers [(limited, message)].  Either may raise. *)
Record CryptoCompareBaseTool (RunnableConfig : Type) : Type := mkTool {
  context_from_config : RunnableConfig -> result (option SkillContext);
  check_rate_limit : option string -> result (bool * string)
}.

Arguments context_from_config {RunnableConfig} _ _.
Arguments check_rate_limit {RunnableConfig} _ _.

(** The imported functions: [skills.cryptocompare.api.fetch_news], by the
    specification a black box [(api_key, token, timestamp) -> JSON] that
    may raise, and [time.time], whose reading during the invocation is
    [time_time]. *)
Record World : Type := mkWorld {
  fetch_news : pyval -> string -> Z -> result pyval;
  time_time : Q
}.

(** ** Calls and pending exceptions

    A computation of the tool takes the log of the calls made so far and
    gives its outcome with the extended log.  The log survives an
    exception: a call that was made stays made. *)

Inductive call : Type :=
| Call_context_from_config
| Call_check_rate_limit (agent_id : option string)
| Call_time
| Call_fetch_news (api_key : pyval) (token : string) (timestamp : Z).

Definition M (A : Type) : Type := list call -> result A * list call.

Definition ret {A : Type} (a : A) : M A := fun log => (Ok a, log).

Definition bind {A B : Type} (m : M A) (k : A -> M B) : M B :=
  fun log =>
    match m log with
    | (Ok a, log') => k a log'
    | (Err e, log') => (Err e, log')
    end.

Definition lift {A : Type} (r : result A) : M A := fun log => (r, log).

(** A call to a collaborator: logged, then its outcome. *)
Definition invoke {A : Type} (c : call) (r : result A) : M A :=
  fun log => (r, log ++ [c]).

(** [try: m except Exception as e: handler e] *)
Definition try_except_Exception {A : Type} (m : M A) (handler : exn -> M A) : M A :=
  fun log =>
    match m log with
    | (Ok a, log') => (Ok a, log')
    | (Err e, log') =>
        if isinstance_Exception e then handler e log' else (Err e, log')
    end.

Declare Scope tool_scope.
Delimit Scope tool_scope with tool.

Notation "x <- m ;; k" := (bind m (fun x => k))
  (at level 100, m at next level, right associativity) : tool_scope.

Definition run {A : Type} (m : M A) : result A * list call := m [].

Definition fetch_called (log : list call) : bool :=
  existsb (fun c => match c with Call_fetch_news _ _ _ => true | _ => false end) log.

(** ** The tool (lines 58-107) *)

Section Tool.

Context {RunnableConfig : Type} {R : Runtime}.

(** [str(v)]: a string is itself; [None], a bool and an int print as
    below, a float and a container as [repr] prints them. *)
Definition py_str (v : pyval) : string :=
  match v with
  | PStr s => s
  | PNone => "None"
  | PBool true => "True"
  | PBool false => "False"
  | PInt z => NilZero.string_of_int (Z.to_int z)
  | _ => repr v
  end.

Definition rejected {A : Type} (field : string) (validated : option A) : list string :=
  match validated with
  | Some _ => []
  | None => [field]
  end.

(** [NewsArticle(id=..., title=..., ...)]: pydantic validates every field
    and raises one [ValidationError] naming all the fields it rejects.
    [id] is already a [str] and [categories] a list of [str]. *)
Definition NewsArticle_init (id : string) (title body published_at url source : pyval)
    (categories : list string) : result NewsArticle :=
  match validate_str title, validate_str body, validate_int published_at,
        validate_str url, validate_str source with
  | Some t, Some b, Some p, Some u, Some s =>
      Ok {| id := id; title := t; body := b; published_at := p;
            url := u; source := s; categories := categories |}
  | t, b, p, u, s =>
      Err (ValidationError "NewsArticle"
             (rejected "title" t ++ rejected "body" b ++ rejected "published_at" p
              ++ rejected "url" u ++ rejected "source" s))
  end.

(** The element expression of the comprehension (lines 92-100).  The
    keyword arguments are evaluated in the order they are written, then
    the constructor runs. *)
Definition to_article (article : pyval) : result NewsArticle :=
  (v_id <- py_getitem article "id" ;;
   v_title <- py_getitem article "title" ;;
   v_body <- py_getitem article "body" ;;
   v_published_on <- py_getitem article "published_on" ;;
   v_url <- py_getitem article "url" ;;
   v_source <- py_getitem article "source" ;;
   v_categories <- py_getitem article "categories" ;;
   cats <- py_split v_categories "|" ;;
   NewsArticle_init (py_str v_id) v_title v_body v_published_on v_url v_source cats)%result.

(** [context.agent.id if context else None] (line 74) *)
Definition agent_id_of (context : option SkillContext) : option string :=
  match context with
  | Some c => Agent.id (agent c)
  | None => None
  end.

(** [context.config] (line 83): [None] has no such attribute. *)
Definition getattr_config (context : option SkillContext) : result pyval :=
  match context with
  | Some c => Ok (config c)
  | None => Err (AttributeError PNone "config")
  end.

Definition invalid_response_format : string :=
  "Invalid response format from CryptoCompare API".

Definition _arun (self : CryptoCompareBaseTool RunnableConfig) (w : World)
    (token : string) (config : RunnableConfig) (kwargs : list (string * pyval))
  : M CryptoCompareFetchNewsOutput :=
  try_except_Exception
    (context <- invoke Call_context_from_config (context_from_config self config) ;;
     let agent_id := agent_id_of context in
     limit <- invoke (Call_check_rate_limit agent_id) (check_rate_limit self agent_id) ;;
     let '(is_rate_limited, error_msg) := limit in
     if is_rate_limited : bool then ret (Output_error error_msg)
     else
       timestamp <- invoke Call_time (Ok (py_int (time_time w))) ;;
       context_config <- lift (getattr_config context) ;;
       api_key <- lift (py_get context_config "api_key") ;;
       response <- invoke (Call_fetch_news api_key token timestamp)
                          (fetch_news w api_key token timestamp) ;;
       has_data <- lift (py_in "Data" response) ;;
       if negb has_data then ret (Output_error invalid_response_format)
       else
         data <- lift (py_getitem response "Data") ;;
         items <- lift (py_iter data) ;;
         articles <- lift (comprehension to_article items) ;;
         ret (Output_articles articles))%tool
    (fun e => ret (Output_error (str_exn e))).

End Tool.

(** ** How far an invocation gets

    The stages of the body of the [try] statement, each under the outcomes
    of the collaborators that lead to it. *)

Section Stages.

Context {RunnableConfig : Type} {R : Runtime}.
Variable self : CryptoCompareBaseTool RunnableConfig.
Variable w : World.
Variable token : string.
Variable cfg : RunnableConfig.

(** The timestamp the tool computes at line 80. *)
Definition now : Z := py_int (time_time w).

(** The limiter is asked, for the identity of [context]. *)
Definition reaches_limiter (context : option SkillContext) : Prop :=
  context_from_config self cfg = Ok context.

(** The limiter lets the call through, for the identity of [context]. *)
Definition not_limited (context : option SkillContext) : Prop :=
  reaches_limiter context /\
  exists msg, check_rate_limit self (agent_id_of context) = Ok (false, msg).

(** [context.config.get("api_key")] (line 83) *)
Definition api_key_of (context : option SkillContext) : result pyval :=
  (context_config <- getattr_config context ;; py_get context_config "api_key")%result.

(** [fetch_news] is called, with [api_key]. *)
Definition reaches_fetch (api_key : pyval) : Prop :=
  exists context, not_limited context /\ api_key_of context = Ok api_key.

(** [fetch_news] is called and answers [response]. *)
Definition receives (response : pyval) : Prop :=
  exists api_key, reaches_fetch api_key /\
                  fetch_news w api_key token now = Ok response.

(** [result["Data"]] (line 101) *)
Definition data_of (response : pyval) : result (list pyval) :=
  (data <- py_getitem response "Data" ;; py_iter data)%result.

(** The comprehension runs over [items]. *)
Definition reaches_mapping (items : list pyval) : Prop :=
  exists response, receives response /\
                   py_in "Data" response = Ok true /\
                   data_of response = Ok items.

(** What lines 85-104 make of the answer of [fetch_news]. *)
Definition after_fetch (response : pyval) : result CryptoCompareFetchNewsOutput :=
  (has_data <- py_in "Data" response ;;
   if negb has_data then Ok (Output_error invalid_response_format)
   else
     items <- data_of response ;;
     articles <- comprehension to_article items ;;
     Ok (Output_articles articles))%result.

(** What lines 106-107 make of the outcome of the [try] block. *)
Definition except_Exception (r : result CryptoCompareFetchNewsOutput)
  : result CryptoCompareFetchNewsOutput :=
  match r with
  | Ok out => Ok out
  | Err e => if isinstance_Exception e then Ok (Output_error (str_exn e)) else Err e
  end.

(** An exception is raised inside the [try] block: by the resolution of
    the context, by the limiter, by the access to the configuration, by
    [fetch_news], or by the inspection and mapping of its answer. *)
Inductive raises : exn -> Prop :=
| raises_in_context (e : exn) :
    context_from_config self cfg = Err e -> raises e
| raises_in_rate_limit_check (context : option SkillContext) (e : exn) :
    reaches_limiter context ->
    check_rate_limit self (agent_id_of context) = Err e -> raises e
| raises_in_config_access (context : option SkillContext) (e : exn) :
    not_limited context -> api_key_of context = Err e -> raises e
| raises_in_network_call (api_key : pyval) (e : exn) :
    reaches_fetch api_key ->
    fetch_news w api_key token now = Err e -> raises e
| raises_in_json_access_or_mapping (response : pyval) (e : exn) :
    receives response -> after_fetch response = Err e -> raises e.

End Stages.

(** [sep.join(pieces)] *)
Fixpoint join (sep : ascii) (pieces : list string) : string :=
  match pieces with
  | [] => EmptyString
  | [p] => p
  | p :: rest => p ++ String sep (join sep rest)
  end.

Fixpoint occurs (c : ascii) (s : string) : bool :=
  match s with
  | EmptyString => false
  | String d rest => Ascii.eqb d c || occurs c rest
  end.

(** ** The provider's contract (specification, section 6)

    An element of ["Data"] as the provider documents it: an object with the
    seven keys, the texts strings, [published_on] an integer, [categories] a
    string of names separated by [|].  The [id] may be a number or a
    string. *)

Record ProviderArticle : Type := mkProviderArticle {
  provider_id : pyval;
  provider_title : string;
  provider_body : string;
  provider_published_on : Z;
  provider_url : string;
  provider_source : string;
  provider_categories : string
}.

Definition as_str (v : option pyval) : option string :=
  match v with
  | Some (PStr s) => Some s
  | _ => None
  end.

Definition as_int (v : option pyval) : option Z :=
  match v with
  | Some (PInt z) => Some z
  | _ => None
  end.

(** Reads an element of ["Data"] against the contract. *)
Definition provider_article (entry : pyval) : option ProviderArticle :=
  match entry with
  | PDict fields =>
      match lookup "id" fields, as_str (lookup "title" fields),
            as_str (lookup "body" fields), as_int (lookup "published_on" fields),
            as_str (lookup "url" fields), as_str (lookup "source" fields),
            as_str (lookup "categories" fields) with
      | Some i, Some t, Some b, Some p, Some u, Some s, Some c =>
          Some (mkProviderArticle i t b p u s c)
      | _, _, _, _, _, _, _ => None
      end
  | _ => None
  end.

(** The article the specification asks for (section 4.1, step 6): [id]
    coerced to a string, the texts and the time copied, the categories
    split on [|]. *)
Definition spec_article {R : Runtime} (p : ProviderArticle) : NewsArticle :=
  {| id := py_str (provider_id p);
     title := provider_title p;
     body := provider_body p;
     published_at := provider_published_on p;
     url := provider_url p;
     source := provider_source p;
     categories := split "|" (provider_categories p) |}.

(** ** Fixtures

    A runtime to run the tool on concrete inputs: CPython 3.12's wording of
    the exceptions the tool raises by itself (of a [ValidationError] only
    the headline), and the validators of pydantic's strict mode.  No
    fixture prints a float or a container, for which [repr] here gives only
    the name of the type. *)

Module Fixture.

Local Open Scope string_scope.

Definition type_name (v : pyval) : string :=
  match v with
  | PNone => "NoneType"
  | PBool _ => "bool"
  | PInt _ => "int"
  | PFloat _ => "float"
  | PStr _ => "str"
  | PList _ => "list"
  | PDict _ => "dict"
  end.

Definition str_TypeError (why : type_error) : string :=
  match why with
  | NotAContainer v => "argument of type '" ++ type_name v ++ "' is not iterable"
  | NotSubscriptable (PList _) _ => "list indices must be integers or slices, not str"
  | NotSubscriptable (PStr _) _ => "string indices must be integers, not 'str'"
  | NotSubscriptable v _ => "'" ++ type_name v ++ "' object is not subscriptable"
  | NotIterable v => "'" ++ type_name v ++ "' object is not iterable"
  end.

Definition exn_text (e : exn) : string :=
  match e with
  | KeyError key => "'" ++ key ++ "'"
  | TypeError why => str_TypeError why
  | AttributeError obj attr =>
      "'" ++ type_name obj ++ "' object has no attribute '" ++ attr ++ "'"
  | ValidationError model fields =>
      NilZero.string_of_uint (Nat.to_uint (length fields))
      ++ (if Nat.eqb (length fields) 1 then " validation error for "
          else " validation errors for ") ++ model
  | Raised _ text => text
  end.

#[global] Instance runtime : Runtime := {|
  repr := fun v => "<" ++ type_name v ++ ">";
  str_exn := exn_text;
  validate_str := fun v => as_str (Some v);
  validate_int := fun v => as_int (Some v)
|}.

Definition context : SkillContext :=
  {| agent := Agent.mk (Some "agent-7");
     config := PDict [("api_key", PStr "secret")] |}.

(** A tool whose agent is known and under the limit. *)
Definition tool : CryptoCompareBaseTool unit :=
  {| context_from_config := fun _ => Ok (Some context);
     check_rate_limit := fun _ => Ok (false, "") |}.

(** A tool whose agent is over the limit. *)
Definition limited_tool : CryptoCompareBaseTool unit :=
  {| context_from_config := fun _ => Ok (Some context);
     check_rate_limit := fun _ => Ok (true, "Rate limit exceeded. Try again later.") |}.

(** A tool whose context carries an agent without an id. *)
Definition unidentified_tool : CryptoCompareBaseTool unit :=
  {| context_from_config :=
       fun _ => Ok (Some {| agent := Agent.mk None; config := config context |});
     check_rate_limit := fun _ => Ok (false, "") |}.

(** A tool that has no agent context. *)
Definition anonymous_tool : CryptoCompareBaseTool unit :=
  {| context_from_config := fun _ => Ok None;
     check_rate_limit := fun _ => Ok (false, "") |}.

(** [time.time()] reads 1700000000.75. *)
Definition clock : Q := 6800000003 # 4.

Definition answering (response : pyval) : World :=
  {| fetch_news := fun _ _ _ => Ok response; time_time := clock |}.

Definition failing (e : exn) : World :=
  {| fetch_news := fun _ _ _ => Err e; time_time := clock |}.

Definition entry (i : Z) (t : string) (cats : pyval) : pyval :=
  PDict [("id", PInt i); ("title", PStr t); ("body", PStr "...");
         ("published_on", PInt 1699999000); ("url", PStr "https://example.org/a");
         ("source", PStr "wire"); ("categories", cats)].

(** Three articles with distinct ids. *)
Definition three_entries : list pyval :=
  [entry 11 "first" (PStr "Blockchain|Mining|Trading");
   entry 12 "second" (PStr "");
   entry 13 "third" (PStr "BTC")].

Definition three : pyval :=
  PDict [("Type", PInt 100); ("Data", PList three_entries)].

(** A second tool, world and caller, to run the same answer twice. *)
Definition other_context : SkillContext :=
  {| agent := Agent.mk (Some "agent-8");
     config := PDict [("api_key", PStr "another"); ("enabled", PBool true)] |}.

Definition other_tool : CryptoCompareBaseTool unit :=
  {| context_from_config := fun _ => Ok (Some other_context);
     check_rate_limit := fun _ => Ok (false, "ok") |}.

Definition later (response : pyval) : World :=
  {| fetch_news := fun _ _ _ => Ok response; time_time := 1700003600 # 1 |}.

(** [asyncio.CancelledError()], which derives from [BaseException] only,
    and an [httpx.ConnectError]. *)
Definition cancelled : exn := Raised FromBaseExceptionOnly "".

Definition refused : exn := Raised FromException "All connection attempts failed".

(** The second element has lost its title. *)
Definition broken : pyval :=
  PDict [("Data", PList [entry 11 "first" (PStr "BTC");
                         PDict [("id", PInt 12)];
                         entry 13 "third" (PStr "BTC")])].

(** An answer without the data field. *)
Definition no_data : pyval :=
  PDict [("Response", PStr "Error"); ("Message", PStr "bad key")].

(** A tool whose configuration holds no api key, and one whose context
    has no configuration at all. *)
Definition keyless_tool : CryptoCompareBaseTool unit :=
  {| context_from_config :=
       fun _ => Ok (Some {| agent := Agent.mk (Some "agent-7");
                            config := PDict [("enabled", PBool true)] |});
     check_rate_limit := fun _ => Ok (false, "") |}.

Definition unconfigured_tool : CryptoCompareBaseTool unit :=
  {| context_from_config :=
       fun _ => Ok (Some {| agent := Agent.mk (Some "agent-7"); config := PNone |});
     check_rate_limit := fun _ => Ok (false, "") |}.

(** An answer whose data is an empty object, and one whose data is an
    object with a member. *)
Definition empty_object_data : pyval :=
  PDict [("Response", PStr "Error"); ("Message", PStr "rate limit");
         ("Data", PDict [])].

Definition object_data : pyval :=
  PDict [("Data", PDict [("Response", PStr "Error")])].

(** The first entry of [three_entries] with two more members. *)
Definition rich_entry : pyval :=
  PDict [("imageurl", PStr "https://example.org/a.png"); ("id", PInt 11);
         ("title", PStr "first"); ("body", PStr "..."); ("lang", PStr "EN");
         ("published_on", PInt 1699999000); ("url", PStr "https://example.org/a");
         ("source", PStr "wire"); ("categories", PStr "Blockchain|Mining|Trading")].

End Fixture.

(** ** The element expression, key by key *)

(** The keys lines 93-99 read, in the order they read them. *)
Definition article_keys : list string :=
  ["id"; "title"; "body"; "published_on"; "url"; "source"; "categories"].

Definition missing (fields : list (string * pyval)) (key : string) : bool :=
  match lookup key fields with
  | Some _ => false
  | None => true
  end.

(** The first of [article_keys] that an object does not hold. *)
Definition first_missing (fields : list (string * pyval)) : option string :=
  find (missing fields) article_keys.

(** The answer holds the top-level data field: it is an object with the
    key ["Data"]. *)
Definition has_data_field (response : pyval) : bool :=
  match response with
  | PDict top => match lookup "Data" top with Some _ => true | None => false end
  | _ => false
  end.

(** How often a character occurs in a string. *)
Fixpoint count (c : ascii) (s : string) : nat :=
  match s with
  | EmptyString => O
  | String d rest => if Ascii.eqb d c then S (count c rest) else count c rest
  end.

(** The calls of an invocation that gets as far as [fetch_news]. *)
Definition all_calls (agent_id : option string) (api_key : pyval) (token : string)
    (timestamp : Z) : list call :=
  [Call_context_from_config; Call_check_rate_limit agent_id; Call_time;
   Call_fetch_news api_key token timestamp].

(** * Properties *)

(** ** Splitting *)

Lemma append_assoc (a b c : string) :
  ((a ++ b) ++ c)%string = (a ++ (b ++ c))%string.
Proof. induction a as [|x a IH]; simpl; [reflexivity | now rewrite IH]. Qed.

Lemma rev_string_acc (piece acc : string) :
  rev_string acc piece = (rev_string EmptyString piece ++ acc)%string.
Proof.
  revert acc. induction piece as [|c piece IH]; intros acc; simpl.
  - reflexivity.
  - rewrite (IH (String c acc)), (IH (String c EmptyString)).
    rewrite append_assoc. reflexivity.
Qed.

Lemma append_empty_r (s : string) : (s ++ EmptyString)%string = s.
Proof. induction s as [|c s IH]; simpl; [reflexivity | now rewrite IH]. Qed.

Lemma split_from_nonempty (sep : ascii) (s piece : string) :
  split_from sep piece s <> [].
Proof.
  revert piece. induction s as [|c s IH]; intros piece; simpl.
  - discriminate.
  - destruct (Ascii.eqb c sep); [discriminate | apply IH].
Qed.

Lemma join_cons (sep : ascii) (p : string) (rest : list string) :
  rest <> [] -> join sep (p :: rest) = (p ++ String sep (join sep rest))%string.
Proof. destruct rest; [congruence | reflexivity]. Qed.

Lemma join_split_from (sep : ascii) (s piece : string) :
  join sep (split_from sep piece s) = (rev_string EmptyString piece ++ s)%string.
Proof.
  revert piece. induction s as [|c s IH]; intros piece; simpl.
  - now rewrite append_empty_r.
  - destruct (Ascii.eqb_spec c sep) as [->|Hne].
    + rewrite join_cons by apply split_from_nonempty.
      now rewrite IH.
    + rewrite IH. simpl. rewrite (rev_string_acc piece (String c EmptyString)).
      rewrite append_assoc. reflexivity.
Qed.

(** Joining the pieces with the separator gives the string back. *)
Lemma join_split (sep : ascii) (s : string) : join sep (split sep s) = s.
Proof. unfold split. now rewrite join_split_from. Qed.

Lemma occurs_rev_string (c : ascii) (piece acc : string) :
  occurs c (rev_string acc piece) = occurs c piece || occurs c acc.
Proof.
  revert acc. induction piece as [|d piece IH]; intros acc; simpl.
  - reflexivity.
  - rewrite IH. simpl. destruct (Ascii.eqb d c), (occurs c piece), (occurs c acc); reflexivity.
Qed.

Lemma split_from_clean (sep : ascii) (s piece : string) :
  occurs sep piece = false ->
  Forall (fun p => occurs sep p = false) (split_from sep piece s).
Proof.
  revert piece. induction s as [|c s IH]; intros piece Hpiece; simpl.
  - constructor; [|constructor].
    now rewrite occurs_rev_string, Hpiece.
  - destruct (Ascii.eqb c sep) eqn:Hc.
    + constructor.
      * now rewrite occurs_rev_string, Hpiece.
      * now apply IH.
    + apply IH. simpl. now rewrite Hc, Hpiece.
Qed.

(** No piece contains the separator. *)
Lemma split_clean (sep : ascii) (s : string) :
  Forall (fun p => occurs sep p = false) (split sep s).
Proof. now apply split_from_clean. Qed.

(** ** The invocation, stage by stage *)

(** Closes a branch of [_arun]: the branch returns, or its exception meets
    the [except] clause. *)
Ltac handled :=
  simpl;
  try reflexivity;
  match goal with
  | |- context [isinstance_Exception ?e] =>
      destruct (isinstance_Exception e); reflexivity
  end.

Section Invocation.

Context {RunnableConfig : Type} {R : Runtime}.
Variable self : CryptoCompareBaseTool RunnableConfig.
Variable w : World.
Variable token : string.
Variable cfg : RunnableConfig.
Variable kwargs : list (string * pyval).

(** The outcome and the calls of [_arun], by the outcomes of the
    collaborators. *)
Lemma arun_unfold :
  run (_arun self w token cfg kwargs) =
  match context_from_config self cfg with
  | Err e => (except_Exception (Err e), [Call_context_from_config])
  | Ok context =>
      let asked := [Call_context_from_config;
                    Call_check_rate_limit (agent_id_of context)] in
      match check_rate_limit self (agent_id_of context) with
      | Err e => (except_Exception (Err e), asked)
      | Ok (true, msg) => (Ok (Output_error msg), asked)
      | Ok (false, _) =>
          match api_key_of context with
          | Err e => (except_Exception (Err e), asked ++ [Call_time])
          | Ok api_key =>
              let called :=
                asked ++ [Call_time; Call_fetch_news api_key token (now w)] in
              match fetch_news w api_key token (now w) with
              | Err e => (except_Exception (Err e), called)
              | Ok response => (except_Exception (after_fetch response), called)
              end
          end
      end
  end.
Proof.
  unfold run, _arun, try_except_Exception, bind, invoke, lift, ret, now.
  unfold api_key_of, after_fetch, data_of, except_Exception, rbind.
  destruct (context_from_config self cfg) as [context|e];
    cbv beta iota zeta; [|handled].
  destruct (check_rate_limit self (agent_id_of context)) as [[[|] msg]|e];
    cbv beta iota zeta; [handled| |handled].
  destruct (getattr_config context) as [context_config|e];
    cbv beta iota zeta; [|handled].
  destruct (py_get context_config "api_key") as [api_key|e];
    cbv beta iota zeta; [|handled].
  destruct (fetch_news w api_key token (py_int (time_time w))) as [response|e];
    cbv beta iota zeta; [|handled].
  destruct (py_in "Data" response) as [[|]|e];
    cbv beta iota zeta; [|handled|handled].
  unfold negb; cbv beta iota.
  destruct (py_getitem response "Data") as [data|e];
    cbv beta iota zeta; [|handled].
  destruct (py_iter data) as [items|e];
    cbv beta iota zeta; [|handled].
  destruct (comprehension to_article items) as [mapped|e]; handled.
Qed.

(** After an answer of [fetch_news] the tool makes no further call. *)
Lemma arun_receives (response : pyval) :
  receives self w token cfg response ->
  fst (run (_arun self w token cfg kwargs)) = except_Exception (after_fetch response).
Proof.
  intros (api_key & (context & (Hctx & msg & Hlimit) & Hkey) & Hfetch).
  unfold reaches_limiter in Hctx.
  rewrite arun_unfold, Hctx. cbv zeta. rewrite Hlimit, Hkey. cbv zeta.
  now rewrite Hfetch.
Qed.

End Invocation.

(** ** The mapping of one element *)

Section Mapping.

Context {R : Runtime}.

(** The exceptions of the element expression are instances of
    [Exception]. *)
Lemma getitem_raises_Exception (v : pyval) (key : string) (e : exn) :
  py_getitem v key = Err e -> isinstance_Exception e = true.
Proof.
  unfold py_getitem.
  destruct v; try (intros [= <-]; reflexivity).
  destruct (lookup key entries); intros [= <-]; reflexivity.
Qed.

Lemma split_raises_Exception (v : pyval) (sep : ascii) (e : exn) :
  py_split v sep = Err e -> isinstance_Exception e = true.
Proof. destruct v; simpl; intros [= <-]; reflexivity. Qed.

Lemma init_raises_Exception i t b p u s c (e : exn) :
  NewsArticle_init i t b p u s c = Err e -> isinstance_Exception e = true.
Proof.
  unfold NewsArticle_init.
  destruct (validate_str t), (validate_str b), (validate_int p),
    (validate_str u), (validate_str s); intros [= <-]; reflexivity.
Qed.

Lemma to_article_raises_Exception (article : pyval) (e : exn) :
  to_article article = Err e -> isinstance_Exception e = true.
Proof.
  unfold to_article.
  repeat match goal with
         | |- rbind (py_getitem ?v ?k) _ = Err _ -> _ =>
             destruct (py_getitem v k) eqn:?; simpl;
             [| intros [= <-]; eauto using getitem_raises_Exception]
         end.
  match goal with
  | |- rbind (py_split ?v ?c) _ = Err _ -> _ => destruct (py_split v c) eqn:Hsplit
  end; simpl.
  - apply init_raises_Exception.
  - intros [= <-]. eauto using split_raises_Exception.
Qed.

Lemma comprehension_raises (f : pyval -> result NewsArticle) (items : list pyval) (e : exn) :
  comprehension f items = Err e ->
  exists before bad after,
    items = before ++ bad :: after /\
    (exists mapped, comprehension f before = Ok mapped) /\
    f bad = Err e.
Proof.
  induction items as [|a items IH]; simpl; [discriminate|].
  destruct (f a) as [b|e'] eqn:Ha.
  - destruct (comprehension f items) as [bs|e'']; [discriminate|].
    intros [= ->]. destruct (IH eq_refl) as (before & bad & after & -> & [mapped Hm] & Hbad).
    exists (a :: before), bad, after. repeat split; auto.
    exists (b :: mapped). simpl. now rewrite Ha, Hm.
  - intros [= ->]. exists [], a, items. repeat split; auto. now exists [].
Qed.

Lemma comprehension_fails (f : pyval -> result NewsArticle) (items : list pyval)
    (bad : pyval) (e : exn) :
  In bad items -> f bad = Err e -> exists e', comprehension f items = Err e'.
Proof.
  induction items as [|a items IH]; simpl; [tauto|].
  intros [->|Hin] Hbad.
  - rewrite Hbad. eauto.
  - destruct (f a); [|eauto].
    destruct (IH Hin Hbad) as [e' ->]. eauto.
Qed.

(** On an element that keeps the provider's contract the element
    expression gives the article of the specification. *)
Lemma to_article_provider (entry : pyval) (p : ProviderArticle) :
  accepts_declared_types R ->
  provider_article entry = Some p ->
  to_article entry = Ok (spec_article p).
Proof.
  intros [Hstr Hint]. unfold provider_article, to_article, as_str, as_int.
  destruct entry as [| | | | |?|fields]; try discriminate. simpl.
  destruct (lookup "id" fields) as [i|]; [|discriminate].
  destruct (lookup "title" fields) as [[| | | |t| |]|]; try discriminate.
  destruct (lookup "body" fields) as [[| | | |b| |]|]; try discriminate.
  destruct (lookup "published_on" fields) as [[| |z| | | |]|]; try discriminate.
  destruct (lookup "url" fields) as [[| | | |u| |]|]; try discriminate.
  destruct (lookup "source" fields) as [[| | | |s| |]|]; try discriminate.
  destruct (lookup "categories" fields) as [[| | | |c| |]|]; try discriminate.
  intros [= <-]. simpl. unfold NewsArticle_init.
  now rewrite !Hstr, Hint.
Qed.

Lemma comprehension_provider (entries : list pyval) :
  accepts_declared_types R ->
  Forall (fun e => provider_article e <> None) entries ->
  exists mapped,
    comprehension to_article entries = Ok mapped /\
    map Some mapped = map (fun e => option_map spec_article (provider_article e)) entries.
Proof.
  intros HR. induction 1 as [|entry entries Hentry _ IH]; simpl.
  - now exists [].
  - destruct (provider_article entry) as [p|] eqn:Hp; [|congruence].
    rewrite (to_article_provider entry p HR Hp).
    destruct IH as (mapped & -> & Hmap).
    exists (spec_article p :: mapped). simpl. now rewrite Hmap.
Qed.

End Mapping.

(** ** The answer of [fetch_news] *)

Section Answer.

Context {R : Runtime}.

Lemma py_in_raises_Exception (key : string) (v : pyval) (e : exn) :
  py_in key v = Err e -> isinstance_Exception e = true.
Proof. destruct v; simpl; intros [= <-]; reflexivity. Qed.

Lemma py_iter_raises_Exception (v : pyval) (e : exn) :
  py_iter v = Err e -> isinstance_Exception e = true.
Proof. destruct v; simpl; intros [= <-]; reflexivity. Qed.

Lemma comprehension_raises_Exception (items : list pyval) (e : exn) :
  comprehension to_article items = Err e -> isinstance_Exception e = true.
Proof.
  intros H. apply comprehension_raises in H.
  destruct H as (_ & bad & _ & _ & _ & Hbad).
  eauto using to_article_raises_Exception.
Qed.

(** Whatever lines 85-104 raise is an instance of [Exception]. *)
Lemma after_fetch_raises_Exception (response : pyval) (e : exn) :
  after_fetch response = Err e -> isinstance_Exception e = true.
Proof.
  unfold after_fetch, data_of, rbind.
  destruct (py_in "Data" response) as [[|]|e0] eqn:Hin; cbv beta iota.
  - unfold negb; cbv iota.
    destruct (py_getitem response "Data") as [data|e1] eqn:Hget.
    + destruct (py_iter data) as [items|e2] eqn:Hiter.
      * destruct (comprehension to_article items) as [mapped|e3] eqn:Hmap.
        -- discriminate.
        -- intros [= <-]. eauto using comprehension_raises_Exception.
      * intros [= <-]. eauto using py_iter_raises_Exception.
    + intros [= <-]. eauto using getitem_raises_Exception.
  - discriminate.
  - intros [= <-]. eauto using py_in_raises_Exception.
Qed.

(** Lines 85-104 return one of the two forms of the output. *)
Lemma after_fetch_returns (response : pyval) (out : CryptoCompareFetchNewsOutput) :
  after_fetch response = Ok out ->
  out = Output_error invalid_response_format \/
  exists mapped, out = Output_articles mapped.
Proof.
  unfold after_fetch, data_of, rbind.
  destruct (py_in "Data" response) as [[|]|e0]; cbv beta iota; try discriminate.
  - unfold negb; cbv iota.
    destruct (py_getitem response "Data") as [data|e1]; [|discriminate].
    destruct (py_iter data) as [items|e2]; [|discriminate].
    destruct (comprehension to_article items) as [mapped|e3]; [|discriminate].
    intros [= <-]. eauto.
  - intros [= <-]. now left.
Qed.

(** The [except] clause turns an [Exception] into the error output. *)
Lemma except_Exception_caught (e : exn) :
  isinstance_Exception e = true ->
  except_Exception (Err e) = Ok (Output_error (str_exn e)).
Proof. intros He. simpl. now rewrite He. Qed.

Lemma except_after_fetch (response : pyval) :
  except_Exception (after_fetch response) =
  Ok match after_fetch response with
     | Ok out => out
     | Err e => Output_error (str_exn e)
     end.
Proof.
  destruct (after_fetch response) as [out|e] eqn:H; [reflexivity|].
  apply except_Exception_caught. eauto using after_fetch_raises_Exception.
Qed.

End Answer.

(** ** Claims *)

Section Claims.

Context {RunnableConfig : Type} {R : Runtime}.
Variable self : CryptoCompareBaseTool RunnableConfig.
Variable w : World.
Variable token : string.
Variable cfg : RunnableConfig.
Variable kwargs : list (string * pyval).

(** C1.  When the caller is known and not limited and [fetch_news] answers
    an object whose ["Data"] is a list of N elements that keep the
    provider's contract, [_arun] returns an output without error whose
    [articles] are N records, the i-th being the article of the i-th
    element. *)
Theorem arun_maps_every_entry (top : list (string * pyval)) (entries : list pyval) :
  accepts_declared_types R ->
  receives self w token cfg (PDict top) ->
  lookup "Data" top = Some (PList entries) ->
  Forall (fun entry => provider_article entry <> None) entries ->
  exists out,
    fst (run (_arun self w token cfg kwargs)) = Ok out /\
    error out = None /\
    length (articles out) = length entries /\
    map Some (articles out) =
    map (fun entry => option_map spec_article (provider_article entry)) entries.
Proof.
  intros HR Hrecv Hdata Hentries.
  destruct (comprehension_provider entries HR Hentries) as (mapped & Hmapped & Horder).
  exists (Output_articles mapped).
  rewrite (arun_receives self w token cfg kwargs _ Hrecv).
  unfold after_fetch, data_of. simpl. rewrite Hdata. simpl. rewrite Hmapped. simpl.
  repeat split; auto.
  apply (f_equal (@length _)) in Horder. now rewrite !length_map in Horder.
Qed.

(** C2.  When the limiter reports the caller as limited, [_arun] returns
    the output whose error is the limiter's message and whose articles are
    empty, and [fetch_news] is not called. *)
Theorem arun_limited_short_circuits (context : option SkillContext) (msg : string) :
  reaches_limiter self cfg context ->
  check_rate_limit self (agent_id_of context) = Ok (true, msg) ->
  fst (run (_arun self w token cfg kwargs)) = Ok {| articles := []; error := Some msg |} /\
  fetch_called (snd (run (_arun self w token cfg kwargs))) = false.
Proof.
  unfold reaches_limiter. intros Hctx Hlimit.
  rewrite arun_unfold, Hctx. cbv zeta. rewrite Hlimit.
  split; reflexivity.
Qed.

(** C3, as amended.  When the answer of [fetch_news] lacks the top-level
    data field, [_arun] returns an output without articles.  Its error is
    the fixed text when the answer is an object without the key, a list
    without the element ["Data"] or a string that does not contain
    ["Data"]; it is the text of the [TypeError] of the membership test of
    line 85 when the answer is [None], a bool or a number, and the text of
    the [TypeError] of the subscript of line 101 when the answer is a list
    with the element ["Data"] or a string that contains ["Data"]. *)
Theorem arun_without_data_field (response : pyval) :
  receives self w token cfg response ->
  has_data_field response = false ->
  fst (run (_arun self w token cfg kwargs)) =
  Ok {| articles := [];
        error :=
          Some
            match response with
            | PDict _ => "Invalid response format from CryptoCompare API"
            | PList items =>
                if existsb (eq_str "Data") items
                then str_exn (TypeError (NotSubscriptable response "Data"))
                else "Invalid response format from CryptoCompare API"
            | PStr s =>
                if substring_of "Data" s
                then str_exn (TypeError (NotSubscriptable response "Data"))
                else "Invalid response format from CryptoCompare API"
            | _ => str_exn (TypeError (NotAContainer response))
            end |}.
Proof.
  intros Hrecv Hlacks.
  rewrite (arun_receives self w token cfg kwargs _ Hrecv).
  unfold after_fetch, data_of.
  destruct response as [| | | |s|items|top]; try reflexivity.
  - cbn [py_in rbind]. destruct (substring_of "Data" s); reflexivity.
  - cbn [py_in rbind]. destruct (existsb (eq_str "Data") items); reflexivity.
  - cbn [has_data_field] in Hlacks. cbn [py_in rbind].
    destruct (lookup "Data" top); [discriminate|reflexivity].
Qed.

(** C4.  The categories of every mapped article are the raw categories
    string split on [|], and an element that keeps the provider's contract
    is mapped: with the raw string ["Blockchain|Mining|Trading"] its
    categories are the three names, and with the empty raw string they are
    the one empty string. *)
Theorem categories_split_on_pipe :
  (forall article a,
      to_article article = Ok a ->
      exists raw,
        py_getitem article "categories" = Ok (PStr raw) /\
        categories a = split "|" raw) /\
  (accepts_declared_types R ->
   forall entry p,
     provider_article entry = Some p ->
     exists a,
       to_article entry = Ok a /\
       categories a = split "|" (provider_categories p) /\
       (provider_categories p = "Blockchain|Mining|Trading" ->
        categories a = ["Blockchain"; "Mining"; "Trading"]) /\
       (provider_categories p = "" -> categories a = [""])).
Proof.
  split.
  - intros article a. unfold to_article.
    repeat match goal with
           | |- rbind (py_getitem ?v ?k) _ = Ok _ -> _ =>
               destruct (py_getitem v k) eqn:?; simpl; [|discriminate]
           end.
    match goal with
    | |- rbind (py_split ?v _) _ = Ok _ -> _ =>
        destruct v as [| | | |raw| |]; simpl; try discriminate
    end.
    unfold NewsArticle_init.
    repeat match goal with
           | |- context [match ?validated with Some _ => _ | None => _ end] =>
               destruct validated; try discriminate
           end.
    intros [= <-]. exists raw. split; reflexivity.
  - intros HR entry p Hp. exists (spec_article p).
    split; [exact (to_article_provider entry p HR Hp)|].
    split; [reflexivity|].
    split; intros Hraw; simpl; rewrite Hraw; reflexivity.
Qed.

(** C5, as amended.  Every exception raised inside the [try] block that is
    an instance of [Exception] is turned into the output whose error is the
    text of the exception and whose articles are empty; every exception
    raised there that is no instance of [Exception] leaves [_arun] as it
    is, and no output is returned. *)
Theorem arun_converts_every_Exception (e : exn) :
  raises self w token cfg e ->
  (isinstance_Exception e = true ->
   fst (run (_arun self w token cfg kwargs)) =
   Ok {| articles := []; error := Some (str_exn e) |}) /\
  (isinstance_Exception e = false ->
   fst (run (_arun self w token cfg kwargs)) = Err e).
Proof.
  intros Hraises.
  assert (Hrun : fst (run (_arun self w token cfg kwargs)) = except_Exception (Err e)).
  { rewrite arun_unfold.
    destruct Hraises as [e H
                        |context e Hctx H
                        |context e [Hctx [msg Hlimit]] H
                        |api_key e (context & [Hctx [msg Hlimit]] & Hkey) H
                        |response e (api_key & (context & [Hctx [msg Hlimit]] & Hkey) & Hfetch) H];
      unfold reaches_limiter in *.
    - now rewrite H.
    - rewrite Hctx. cbv zeta. now rewrite H.
    - rewrite Hctx. cbv zeta. now rewrite Hlimit, H.
    - rewrite Hctx. cbv zeta. rewrite Hlimit, Hkey. cbv zeta. now rewrite H.
    - rewrite Hctx. cbv zeta. rewrite Hlimit, Hkey. cbv zeta. now rewrite Hfetch, H. }
  rewrite Hrun. simpl. split; intros ->; reflexivity.
Qed.

(** C6.  When the element expression raises on an element of the data, the
    call returns the error output of the first element it raises on: no
    article is returned, not even those mapped before. *)
Theorem arun_no_partial_result (items : list pyval) (bad : pyval) (e : exn) :
  reaches_mapping self w token cfg items ->
  In bad items ->
  to_article bad = Err e ->
  exists first e',
    In first items /\
    to_article first = Err e' /\
    fst (run (_arun self w token cfg kwargs)) =
    Ok {| articles := []; error := Some (str_exn e') |}.
Proof.
  intros (response & Hrecv & Hin & Hitems) Hbad He.
  destruct (comprehension_fails to_article items bad e Hbad He) as [e' Hfail].
  destruct (comprehension_raises to_article items e' Hfail)
    as (before & first & after & -> & _ & Hfirst).
  exists first, e'. split; [apply in_elt|]. split; [exact Hfirst|].
  rewrite (arun_receives self w token cfg kwargs _ Hrecv).
  unfold after_fetch. rewrite Hin. simpl. rewrite Hitems. simpl. rewrite Hfail. simpl.
  now rewrite (to_article_raises_Exception first e' Hfirst).
Qed.

(** The run of [_arun] without an agent context: the limiter is asked with
    no identity, the clock is read, and [context.config] raises. *)
Lemma arun_without_context (msg : string) :
  context_from_config self cfg = Ok None ->
  check_rate_limit self None = Ok (false, msg) ->
  run (_arun self w token cfg kwargs) =
  (Ok (Output_error (str_exn (AttributeError PNone "config"))),
   [Call_context_from_config; Call_check_rate_limit None; Call_time]).
Proof.
  intros Hctx Hlimit. rewrite arun_unfold, Hctx. cbv zeta. simpl agent_id_of.
  now rewrite Hlimit.
Qed.


(** The two forms of a returned output. *)
Lemma arun_returns (out : CryptoCompareFetchNewsOutput) :
  fst (run (_arun self w token cfg kwargs)) = Ok out ->
  (exists msg, out = Output_error msg) \/ (exists mapped, out = Output_articles mapped).
Proof.
  assert (Hcaught : forall e, except_Exception (Err e) = Ok out ->
                              exists msg, out = Output_error msg).
  { intros e. simpl. destruct (isinstance_Exception e); [|discriminate].
    intros [= <-]. eauto. }
  rewrite arun_unfold.
  destruct (context_from_config self cfg) as [context|e]; cbv zeta; [|simpl fst; eauto].
  destruct (check_rate_limit self (agent_id_of context)) as [[[|] msg]|e];
    [|  |simpl fst; eauto].
  - simpl. intros [= <-]. eauto.
  - destruct (api_key_of context) as [key|e]; [|simpl fst; eauto].
    destruct (fetch_news w key token (now w)) as [response|e]; [|simpl fst; eauto].
    simpl fst. rewrite except_after_fetch. intros [= <-].
    destruct (after_fetch response) as [out|e] eqn:H; [|eauto].
    destruct (after_fetch_returns response out H) as [->|[mapped ->]]; eauto.
Qed.

(** C10.  A returned output has at most one side: with an error there are
    no articles, and with articles there is no error. *)
Theorem arun_output_one_branch (out : CryptoCompareFetchNewsOutput) :
  fst (run (_arun self w token cfg kwargs)) = Ok out ->
  (error out <> None -> articles out = []) /\
  (articles out <> [] -> error out = None).
Proof.
  intros H. destruct (arun_returns out H) as [[msg ->]|[mapped ->]]; simpl; split;
    congruence.
Qed.

Variable self' : CryptoCompareBaseTool RunnableConfig.
Variable w' : World.
Variable token' : string.
Variable cfg' : RunnableConfig.
Variable kwargs' : list (string * pyval).

(** C9.  Two invocations whose [fetch_news] gives the same answer return
    the same output, whatever the tools, the callers, the tokens, the
    keyword arguments and the clocks are. *)
Theorem arun_mapping_deterministic (response : pyval) :
  receives self w token cfg response ->
  receives self' w' token' cfg' response ->
  exists out,
    fst (run (_arun self w token cfg kwargs)) = Ok out /\
    fst (run (_arun self' w' token' cfg' kwargs')) = Ok out.
Proof.
  intros H H'.
  rewrite (arun_receives self w token cfg kwargs _ H).
  rewrite (arun_receives self' w' token' cfg' kwargs' _ H').
  rewrite except_after_fetch. eauto.
Qed.

End Claims.

(** ** Runs on the fixtures *)

Lemma fixture_accepts_declared_types : accepts_declared_types Fixture.runtime.
Proof. split; reflexivity. Qed.

Lemma fixture_receives (response : pyval) :
  receives Fixture.tool (Fixture.answering response) "BTC" tt response.
Proof.
  exists (PStr "secret"). split; [|reflexivity].
  exists (Some Fixture.context). split; [|reflexivity].
  split; [reflexivity|]. now exists "".
Qed.

Lemma other_receives (response : pyval) :
  receives Fixture.other_tool (Fixture.later response) "ETH" tt response.
Proof.
  exists (PStr "another"). split; [|reflexivity].
  exists (Some Fixture.other_context). split; [|reflexivity].
  split; [reflexivity|]. now exists "ok".
Qed.

(** The three articles of the fixture, as the tool returns them. *)
Example three_articles :
  fst (run (_arun Fixture.tool (Fixture.answering Fixture.three) "BTC" tt [])) =
  Ok {| articles :=
          [mkNewsArticle "11" "first" "..." 1699999000 "https://example.org/a" "wire"
             ["Blockchain"; "Mining"; "Trading"];
           mkNewsArticle "12" "second" "..." 1699999000 "https://example.org/a" "wire"
             [""];
           mkNewsArticle "13" "third" "..." 1699999000 "https://example.org/a" "wire"
             ["BTC"]];
        error := None |}.
Proof. reflexivity. Qed.

Lemma arun_maps_every_entry_witness :
  exists out,
    fst (run (_arun Fixture.tool (Fixture.answering Fixture.three) "BTC" tt [])) = Ok out /\
    error out = None /\
    length (articles out) = length Fixture.three_entries /\
    map Some (articles out) =
    map (fun entry => option_map spec_article (provider_article entry))
      Fixture.three_entries.
Proof.
  apply (arun_maps_every_entry Fixture.tool (Fixture.answering Fixture.three) "BTC" tt []
           [("Type", PInt 100); ("Data", PList Fixture.three_entries)]
           Fixture.three_entries).
  - exact fixture_accepts_declared_types.
  - exact (fixture_receives Fixture.three).
  - reflexivity.
  - repeat constructor; discriminate.
Defined.

Lemma arun_limited_short_circuits_witness :
  fst (run (_arun Fixture.limited_tool (Fixture.answering Fixture.three) "BTC" tt [])) =
  Ok {| articles := []; error := Some "Rate limit exceeded. Try again later." |} /\
  fetch_called
    (snd (run (_arun Fixture.limited_tool (Fixture.answering Fixture.three) "BTC" tt [])))
  = false.
Proof.
  apply (arun_limited_short_circuits Fixture.limited_tool (Fixture.answering Fixture.three)
           "BTC" tt [] (Some Fixture.context) "Rate limit exceeded. Try again later.").
  - reflexivity.
  - reflexivity.
Defined.

Lemma arun_without_data_field_witness :
  fst (run (_arun Fixture.tool (Fixture.answering Fixture.no_data) "BTC" tt [])) =
  Ok {| articles := [];
        error := Some "Invalid response format from CryptoCompare API" |}.
Proof.
  apply (arun_without_data_field Fixture.tool (Fixture.answering Fixture.no_data) "BTC" tt []
           Fixture.no_data).
  - exact (fixture_receives Fixture.no_data).
  - reflexivity.
Defined.

(** C3, as stated, fails: the answer [None] lacks the data field, and the
    error of the output is the text of the [TypeError] of the membership
    test, not the fixed text. *)
Lemma arun_null_answer_not_fixed_text :
  receives Fixture.tool (Fixture.answering PNone) "BTC" tt PNone /\
  has_data_field PNone = false /\
  fst (run (_arun Fixture.tool (Fixture.answering PNone) "BTC" tt [])) =
  Ok {| articles := [];
        error := Some "argument of type 'NoneType' is not iterable" |} /\
  fst (run (_arun Fixture.tool (Fixture.answering PNone) "BTC" tt [])) <>
  Ok {| articles := [];
        error := Some "Invalid response format from CryptoCompare API" |}.
Proof.
  split; [exact (fixture_receives PNone)|].
  split; [reflexivity|].
  split; [reflexivity|].
  simpl. discriminate.
Qed.

(** The same on a list that holds the element ["Data"] and on a string
    that contains it: the membership test passes and the subscript
    raises. *)
Example list_and_string_answers :
  fst (run (_arun Fixture.tool (Fixture.answering (PList [PStr "Data"])) "BTC" tt [])) =
  Ok {| articles := [];
        error := Some "list indices must be integers or slices, not str" |} /\
  fst (run (_arun Fixture.tool (Fixture.answering (PStr "No Data here")) "BTC" tt [])) =
  Ok {| articles := [];
        error := Some "string indices must be integers, not 'str'" |}.
Proof. split; reflexivity. Qed.

Lemma categories_split_on_pipe_witness :
  (exists a,
      to_article (Fixture.entry 11 "first" (PStr "Blockchain|Mining|Trading")) = Ok a /\
      categories a = ["Blockchain"; "Mining"; "Trading"]) /\
  (exists a,
      to_article (Fixture.entry 12 "second" (PStr "")) = Ok a /\
      categories a = [""]).
Proof.
  pose proof (proj2 (categories_split_on_pipe (R := Fixture.runtime))
                fixture_accepts_declared_types) as Hmapped.
  split.
  - destruct (Hmapped (Fixture.entry 11 "first" (PStr "Blockchain|Mining|Trading"))
                (mkProviderArticle (PInt 11) "first" "..." 1699999000
                   "https://example.org/a" "wire" "Blockchain|Mining|Trading")
                eq_refl) as (a & Ha & _ & Hthree & _).
    exists a. split; [exact Ha|exact (Hthree eq_refl)].
  - destruct (Hmapped (Fixture.entry 12 "second" (PStr ""))
                (mkProviderArticle (PInt 12) "second" "..." 1699999000
                   "https://example.org/a" "wire" "")
                eq_refl) as (a & Ha & _ & _ & Hempty).
    exists a. split; [exact Ha|exact (Hempty eq_refl)].
Defined.

(** An answer that is no container: the membership test of line 85 raises
    and the text of the [TypeError] is returned, not the fixed text. *)
Example null_answer :
  fst (run (_arun Fixture.tool (Fixture.answering PNone) "BTC" tt [])) =
  Ok {| articles := [];
        error := Some "argument of type 'NoneType' is not iterable" |}.
Proof. reflexivity. Qed.

(** C5, as stated, fails: a cancellation that reaches the awaited
    [fetch_news] is raised inside the [try] block and leaves [_arun] as an
    exception, not as an output. *)
Lemma arun_propagates_cancellation :
  raises Fixture.tool (Fixture.failing Fixture.cancelled) "BTC" tt Fixture.cancelled /\
  fst (run (_arun Fixture.tool (Fixture.failing Fixture.cancelled) "BTC" tt [])) =
  Err Fixture.cancelled.
Proof.
  split; [|reflexivity].
  apply raises_in_network_call with (api_key := PStr "secret"); [|reflexivity].
  exists (Some Fixture.context). split; [|reflexivity].
  split; [reflexivity|]. now exists "".
Qed.

Lemma fixture_raises (e : exn) :
  raises Fixture.tool (Fixture.failing e) "BTC" tt e.
Proof.
  apply raises_in_network_call with (api_key := PStr "secret"); [|reflexivity].
  exists (Some Fixture.context). split; [|reflexivity].
  split; [reflexivity|]. now exists "".
Qed.

Lemma arun_converts_every_Exception_witness :
  fst (run (_arun Fixture.tool (Fixture.failing Fixture.refused) "BTC" tt [])) =
  Ok {| articles := []; error := Some (str_exn Fixture.refused) |} /\
  fst (run (_arun Fixture.tool (Fixture.failing Fixture.cancelled) "BTC" tt [])) =
  Err Fixture.cancelled.
Proof.
  split.
  - apply (arun_converts_every_Exception Fixture.tool (Fixture.failing Fixture.refused)
             "BTC" tt [] Fixture.refused (fixture_raises Fixture.refused)).
    reflexivity.
  - apply (arun_converts_every_Exception Fixture.tool (Fixture.failing Fixture.cancelled)
             "BTC" tt [] Fixture.cancelled (fixture_raises Fixture.cancelled)).
    reflexivity.
Defined.

Lemma arun_no_partial_result_witness :
  exists first e',
    In first [Fixture.entry 11 "first" (PStr "BTC");
              PDict [("id", PInt 12)];
              Fixture.entry 13 "third" (PStr "BTC")] /\
    to_article first = Err e' /\
    fst (run (_arun Fixture.tool (Fixture.answering Fixture.broken) "BTC" tt [])) =
    Ok {| articles := []; error := Some (str_exn e') |}.
Proof.
  apply (arun_no_partial_result Fixture.tool (Fixture.answering Fixture.broken) "BTC" tt []
           _ (PDict [("id", PInt 12)]) (KeyError "title")).
  - exists Fixture.broken. split; [exact (fixture_receives Fixture.broken)|].
    split; reflexivity.
  - right. left. reflexivity.
  - reflexivity.
Defined.

(** The broken fixture, run: the first article was mapped and is not
    returned. *)
Example broken_articles :
  to_article (Fixture.entry 11 "first" (PStr "BTC")) =
  Ok (mkNewsArticle "11" "first" "..." 1699999000 "https://example.org/a" "wire" ["BTC"]) /\
  fst (run (_arun Fixture.tool (Fixture.answering Fixture.broken) "BTC" tt [])) =
  Ok {| articles := []; error := Some "'title'" |}.
Proof. split; reflexivity. Qed.

(** With a context whose agent has no id the limiter is asked with no
    identity and the call goes on to [fetch_news] and to the mapping. *)
Example unidentified_agent_proceeds :
  run (_arun Fixture.unidentified_tool (Fixture.answering Fixture.three) "BTC" tt []) =
  (fst (run (_arun Fixture.tool (Fixture.answering Fixture.three) "BTC" tt [])),
   [Call_context_from_config; Call_check_rate_limit None; Call_time;
    Call_fetch_news (PStr "secret") "BTC" 1700000000]).
Proof. reflexivity. Qed.

(** C7.  Without an agent context the limiter is asked with no identity
    and lets the call through, and the call still does not reach
    [fetch_news]: line 83 reads [context.config] of [None], and the tool
    returns the text of that [AttributeError]. *)
Theorem arun_without_context_fails :
  context_from_config Fixture.anonymous_tool tt = Ok None /\
  check_rate_limit Fixture.anonymous_tool None = Ok (false, "") /\
  run (_arun Fixture.anonymous_tool (Fixture.answering Fixture.three) "BTC" tt []) =
  (Ok {| articles := [];
         error := Some "'NoneType' object has no attribute 'config'" |},
   [Call_context_from_config; Call_check_rate_limit None; Call_time]).
Proof. repeat split. Qed.


Lemma arun_mapping_deterministic_witness :
  exists out,
    fst (run (_arun Fixture.tool (Fixture.answering Fixture.three) "BTC" tt [])) = Ok out /\
    fst (run (_arun Fixture.other_tool (Fixture.later Fixture.three) "ETH" tt
                [("timestamp", PInt 1500000000)])) = Ok out.
Proof.
  apply (arun_mapping_deterministic Fixture.tool (Fixture.answering Fixture.three) "BTC" tt []
           Fixture.other_tool (Fixture.later Fixture.three) "ETH" tt
           [("timestamp", PInt 1500000000)] Fixture.three).
  - exact (fixture_receives Fixture.three).
  - exact (other_receives Fixture.three).
Defined.

Lemma arun_output_one_branch_witness :
  (error (Output_error "Invalid response format from CryptoCompare API") <> None ->
   articles (Output_error "Invalid response format from CryptoCompare API") = []) /\
  (articles (Output_error "Invalid response format from CryptoCompare API") <> [] ->
   error (Output_error "Invalid response format from CryptoCompare API") = None).
Proof.
  apply (arun_output_one_branch Fixture.tool (Fixture.answering Fixture.no_data) "BTC" tt []).
  reflexivity.
Defined.

(** * Further properties of the tool *)

(** ** Splitting, counted *)

Lemma length_split_from (sep : ascii) (s piece : string) :
  length (split_from sep piece s) = S (count sep s).
Proof.
  revert piece. induction s as [|c s IH]; intros piece; simpl.
  - reflexivity.
  - destruct (Ascii.eqb c sep); simpl; now rewrite IH.
Qed.

(** The element expression succeeds only on an object that holds the
    seven keys with a string under ["categories"]; the categories are then
    the pieces of that string. *)
Lemma to_article_inv {R : Runtime} (article : pyval) (a : NewsArticle) :
  to_article article = Ok a ->
  exists fields raw_id raw,
    article = PDict fields /\
    first_missing fields = None /\
    lookup "id" fields = Some raw_id /\
    lookup "categories" fields = Some (PStr raw) /\
    id a = py_str raw_id /\
    categories a = split "|" raw.
Proof.
  unfold to_article.
  destruct article as [| | | | | |fields]; try discriminate.
  unfold py_getitem.
  destruct (lookup "id" fields) as [raw_id|] eqn:Hid; [|discriminate].
  destruct (lookup "title" fields) as [raw_title|] eqn:Htitle; [|discriminate].
  destruct (lookup "body" fields) as [raw_body|] eqn:Hbody; [|discriminate].
  destruct (lookup "published_on" fields) as [raw_published|] eqn:Hpublished;
    [|discriminate].
  destruct (lookup "url" fields) as [raw_url|] eqn:Hurl; [|discriminate].
  destruct (lookup "source" fields) as [raw_source|] eqn:Hsource; [|discriminate].
  destruct (lookup "categories" fields) as [[| | | |raw| |]|] eqn:Hcategories;
    try discriminate.
  cbn [rbind py_split]. unfold NewsArticle_init.
  destruct (validate_str raw_title), (validate_str raw_body),
    (validate_int raw_published), (validate_str raw_url), (validate_str raw_source);
    try discriminate.
  intros [= <-]. exists fields, raw_id, raw.
  split; [reflexivity|]. split; [|now repeat split].
  unfold first_missing, article_keys, missing. cbn [find].
  now rewrite Hid, Htitle, Hbody, Hpublished, Hurl, Hsource, Hcategories.
Qed.

Lemma comprehension_Forall2 {A B : Type} (f : A -> result B) (l : list A) (bs : list B) :
  comprehension f l = Ok bs -> Forall2 (fun a b => f a = Ok b) l bs.
Proof.
  revert bs. induction l as [|a l IH]; simpl; intros bs.
  - intros [= <-]. constructor.
  - destruct (f a) as [b|e] eqn:Ha; [|discriminate].
    destruct (comprehension f l) as [bs'|e]; [|discriminate].
    intros [= <-]. constructor; auto.
Qed.

Lemma mapped_elements_complete {R : Runtime} (items : list pyval)
    (mapped : list NewsArticle) :
  comprehension to_article items = Ok mapped ->
  Forall (fun item => exists fields, item = PDict fields /\ first_missing fields = None)
         items.
Proof.
  intros H. apply comprehension_Forall2 in H.
  induction H as [|item a items mapped Hitem _ IH]; constructor; auto.
  destruct (to_article_inv item a Hitem) as (fields & raw_id & raw & Hshape).
  destruct Hshape as (-> & Hnone & _).
  now exists fields.
Qed.

(** What the two membership tests of line 85 decide on a list and on a
    string. *)
Lemma element_spec (key : string) (items : list pyval) :
  existsb (eq_str key) items = true <-> In (PStr key) items.
Proof.
  induction items as [|v items IH]; cbn [existsb In].
  - split; [discriminate|tauto].
  - rewrite orb_true_iff, IH. split; intros [H|H]; auto.
    + left. destruct v as [| | | |s| |]; cbn [eq_str] in H; try discriminate.
      apply String.eqb_eq in H. now subst.
    + left. subst v. cbn [eq_str]. apply String.eqb_refl.
Qed.

Lemma prefix_spec (needle s : string) :
  String.prefix needle s = true <-> exists post, s = (needle ++ post)%string.
Proof.
  revert s. induction needle as [|c needle IH]; intros s.
  - split; [intros _; now exists s|intros _; destruct s; reflexivity].
  - destruct s as [|d s]; simpl.
    + split; [discriminate|intros [post H]; discriminate].
    + destruct (ascii_dec c d) as [->|Hne].
      * rewrite IH. split; intros [post H]; exists post; congruence.
      * split; [discriminate|intros [post H]; congruence].
Qed.

Lemma substring_of_spec (needle s : string) :
  substring_of needle s = true <->
  exists pre post, s = (pre ++ needle ++ post)%string.
Proof.
  split.
  - induction s as [|c s IH].
    + cbn [substring_of]. destruct (String.prefix needle "") eqn:Hp; [|discriminate].
      intros _. apply prefix_spec in Hp. destruct Hp as [post ->].
      now exists ""%string, post.
    + cbn [substring_of]. destruct (String.prefix needle (String c s)) eqn:Hp.
      * intros _. apply prefix_spec in Hp. destruct Hp as [post Hpost].
        now exists ""%string, post.
      * intros H. destruct (IH H) as (pre & post & ->).
        now exists (String c pre), post.
  - intros (pre & post & ->). induction pre as [|c pre IH].
    + assert (Hp : String.prefix needle (needle ++ post) = true)
        by (apply prefix_spec; now exists post).
      cbn [append]. destruct (needle ++ post)%string; cbn [substring_of]; now rewrite Hp.
    + cbn [append substring_of].
      destruct (String.prefix needle (String c (pre ++ needle ++ post))); auto.
Qed.

Lemma no_element_Data (items : list pyval) :
  ~ In (PStr "Data") items -> existsb (eq_str "Data") items = false.
Proof.
  induction items as [|v items IH]; cbn [existsb In]; [reflexivity|].
  intros Hnot. rewrite IH by tauto. rewrite orb_false_r.
  destruct v as [| | | |s| |]; cbn [eq_str]; try reflexivity.
  destruct (String.eqb_spec "Data" s) as [<-|]; [|reflexivity].
  exfalso. apply Hnot. now left.
Qed.

(** [int] of a reading of the clock at or after the epoch is its floor. *)
Lemma py_int_floor (x : Q) :
  (0 <= x)%Q ->
  (inject_Z (py_int x) <= x)%Q /\ (x < inject_Z (py_int x + 1))%Q.
Proof.
  destruct x as [n d]. unfold Qle, Qlt, py_int. simpl. intros Hn.
  assert (Hn' : 0 <= n) by lia.
  rewrite Z.quot_div_nonneg by lia.
  pose proof (Z.div_mod n (Zpos d) ltac:(lia)) as Hdiv.
  pose proof (Z.mod_pos_bound n (Zpos d) ltac:(lia)) as Hmod.
  split; nia.
Qed.

Section Coverage.

Context {RunnableConfig : Type} {R : Runtime}.
Variable self : CryptoCompareBaseTool RunnableConfig.
Variable w : World.
Variable token : string.
Variable cfg : RunnableConfig.
Variable kwargs : list (string * pyval).

(** X1.  The calls of an invocation are a beginning of: context, limiter,
    clock, [fetch_news].  No collaborator is called twice or out of this
    order, and the context is always resolved. *)
Theorem arun_calls_in_order :
  exists (n : nat) (agent_id : option string) (api_key : pyval),
    (1 <= n <= 4)%nat /\
    snd (run (_arun self w token cfg kwargs)) =
    firstn n (all_calls agent_id api_key token (py_int (time_time w))).
Proof.
  rewrite arun_unfold. unfold now.
  destruct (context_from_config self cfg) as [context|e]; cbv zeta.
  2: { exists 1%nat, None, PNone. split; [lia|reflexivity]. }
  destruct (check_rate_limit self (agent_id_of context)) as [[[|] msg]|e].
  1,3: exists 2%nat, (agent_id_of context), PNone; split; [lia|reflexivity].
  destruct (api_key_of context) as [key|e].
  2: { exists 3%nat, (agent_id_of context), PNone. split; [lia|reflexivity]. }
  exists 4%nat, (agent_id_of context), key. split; [lia|].
  destruct (fetch_news w key token (py_int (time_time w))); reflexivity.
Qed.

(** X2.  [fetch_news] is called only when a context was resolved, the
    limiter let its agent through, and the configuration is an object; the
    key it is given is [config.get("api_key")], and the calls of the
    invocation are then exactly the four. *)
Theorem arun_fetch_needs_admission (api_key : pyval) (t : string) (ts : Z) :
  In (Call_fetch_news api_key t ts) (snd (run (_arun self w token cfg kwargs))) ->
  exists c msg,
    context_from_config self cfg = Ok (Some c) /\
    check_rate_limit self (Agent.id (agent c)) = Ok (false, msg) /\
    py_get (config c) "api_key" = Ok api_key /\
    snd (run (_arun self w token cfg kwargs)) =
    all_calls (Agent.id (agent c)) api_key token (py_int (time_time w)).
Proof.
  rewrite arun_unfold. unfold now.
  destruct (context_from_config self cfg) as [context|e]; cbv zeta.
  2: { simpl. intuition discriminate. }
  destruct (check_rate_limit self (agent_id_of context)) as [[[|] msg]|e] eqn:Hlimit.
  1,3: simpl; intuition discriminate.
  destruct context as [c|]; unfold api_key_of; simpl getattr_config; cbn [rbind].
  2: { simpl. intuition discriminate. }
  simpl agent_id_of in *.
  destruct (py_get (config c) "api_key") as [key|e] eqn:Hkey.
  2: { simpl. intuition discriminate. }
  intros Hin. exists c, msg.
  assert (Hcall : In (Call_fetch_news api_key t ts)
                     (all_calls (Agent.id (agent c)) key token (py_int (time_time w)))).
  { destruct (fetch_news w key token (py_int (time_time w))); exact Hin. }
  assert (key = api_key) as ->.
  { simpl in Hcall. destruct Hcall as [H|[H|[H|[H|[]]]]]; try discriminate.
    now injection H. }
  repeat split; auto.
  destruct (fetch_news w api_key token (py_int (time_time w))); reflexivity.
Qed.

(** X3.  A configuration without ["api_key"] does not stop the call:
    [fetch_news] is called with [None] as its key. *)
Theorem arun_missing_api_key (c : SkillContext) (msg : string)
    (settings : list (string * pyval)) :
  context_from_config self cfg = Ok (Some c) ->
  check_rate_limit self (Agent.id (agent c)) = Ok (false, msg) ->
  config c = PDict settings ->
  lookup "api_key" settings = None ->
  In (Call_fetch_news PNone token (py_int (time_time w)))
     (snd (run (_arun self w token cfg kwargs))).
Proof.
  intros Hctx Hlimit Hconfig Hkey.
  rewrite arun_unfold, Hctx. cbv zeta. simpl agent_id_of. rewrite Hlimit.
  unfold api_key_of. simpl getattr_config. cbn [rbind]. rewrite Hconfig.
  simpl py_get. rewrite Hkey. unfold now.
  destruct (fetch_news w PNone token (py_int (time_time w))); simpl; auto.
Qed.

(** X4.  A configuration that is no object ends the call before
    [fetch_news]: the output carries the text of the [AttributeError] of
    [.get], after the limiter was asked and the clock read. *)
Theorem arun_config_not_an_object (c : SkillContext) (msg : string) :
  context_from_config self cfg = Ok (Some c) ->
  check_rate_limit self (Agent.id (agent c)) = Ok (false, msg) ->
  (forall settings, config c <> PDict settings) ->
  run (_arun self w token cfg kwargs) =
  (Ok {| articles := [];
         error := Some (str_exn (AttributeError (config c) "get")) |},
   [Call_context_from_config; Call_check_rate_limit (Agent.id (agent c)); Call_time]).
Proof.
  intros Hctx Hlimit Hconfig.
  rewrite arun_unfold, Hctx. cbv zeta. simpl agent_id_of. rewrite Hlimit.
  unfold api_key_of. simpl getattr_config. cbn [rbind].
  destruct (config c) as [| | | | | |settings] eqn:Hc; try reflexivity.
  now destruct (Hconfig settings).
Qed.

(** X5.  Data without elements, be it an empty list, an empty object or
    an empty string, gives the output that has neither articles nor
    error. *)
Theorem arun_empty_data (top : list (string * pyval)) (data : pyval) :
  receives self w token cfg (PDict top) ->
  lookup "Data" top = Some data ->
  data = PList [] \/ data = PDict [] \/ data = PStr "" ->
  fst (run (_arun self w token cfg kwargs)) = Ok {| articles := []; error := None |}.
Proof.
  intros Hrecv Hdata Hempty.
  rewrite (arun_receives self w token cfg kwargs _ Hrecv).
  unfold after_fetch, data_of. simpl. rewrite Hdata. simpl.
  destruct Hempty as [->|[->| ->]]; reflexivity.
Qed.

(** X6.  An output without error, once the mapping was reached, holds one
    article for every element of the data, in order, each the value of the
    element expression on its element. *)
Theorem arun_success_maps_all (items : list pyval) (out : CryptoCompareFetchNewsOutput) :
  reaches_mapping self w token cfg items ->
  fst (run (_arun self w token cfg kwargs)) = Ok out ->
  error out = None ->
  Forall2 (fun item a => to_article item = Ok a) items (articles out).
Proof.
  intros (response & Hrecv & Hin & Hitems).
  rewrite (arun_receives self w token cfg kwargs _ Hrecv).
  unfold after_fetch. rewrite Hin. simpl. rewrite Hitems. simpl.
  destruct (comprehension to_article items) as [mapped|e] eqn:Hmap; simpl.
  - intros [= <-] _. now apply comprehension_Forall2.
  - destruct (isinstance_Exception e); [|discriminate].
    intros [= <-]. discriminate.
Qed.

(** The arguments of a call of [fetch_news]. *)
Lemma fetch_call_args (api_key : pyval) (t : string) (ts : Z) :
  In (Call_fetch_news api_key t ts) (snd (run (_arun self w token cfg kwargs))) ->
  t = token /\ ts = py_int (time_time w).
Proof.
  rewrite arun_unfold. unfold now.
  destruct (context_from_config self cfg) as [context|e]; cbv zeta.
  2: { simpl. intuition discriminate. }
  destruct (check_rate_limit self (agent_id_of context)) as [[[|] msg]|e].
  1,3: simpl; intuition discriminate.
  destruct (api_key_of context) as [key|e].
  2: { simpl. intuition discriminate. }
  destruct (fetch_news w key token (py_int (time_time w)));
    simpl; intros [H|[H|[H|[H|[]]]]]; try discriminate;
    injection H as _ <- <-; auto.
Qed.

(** X10.  With a clock at or after the epoch, the timestamp given to
    [fetch_news] is not later than the reading of the clock and less than
    a second before it. *)
Theorem arun_timestamp_floor (api_key : pyval) (t : string) (ts : Z) :
  In (Call_fetch_news api_key t ts) (snd (run (_arun self w token cfg kwargs))) ->
  (0 <= time_time w)%Q ->
  (inject_Z ts <= time_time w)%Q /\ (time_time w < inject_Z (ts + 1))%Q.
Proof.
  intros Hin Hclock.
  destruct (fetch_call_args api_key t ts Hin) as [_ ->].
  now apply py_int_floor.
Qed.

(** X11.  The only exceptions that leave [_arun] are raised by a
    collaborator and are no instances of [Exception]; nothing the tool
    raises by itself reaches the caller. *)
Theorem arun_escapes_only_from_collaborators (e : exn) :
  fst (run (_arun self w token cfg kwargs)) = Err e ->
  isinstance_Exception e = false /\
  (context_from_config self cfg = Err e \/
   (exists context, check_rate_limit self (agent_id_of context) = Err e) \/
   (exists api_key, fetch_news w api_key token (py_int (time_time w)) = Err e)).
Proof.
  assert (Hescape : forall e0, except_Exception (Err e0) = Err e ->
                               isinstance_Exception e = false /\ e0 = e).
  { intros e0. simpl. destruct (isinstance_Exception e0) eqn:He0; [discriminate|].
    intros [= <-]. auto. }
  rewrite arun_unfold. unfold now.
  destruct (context_from_config self cfg) as [context|e0]; cbv zeta.
  2: { simpl fst. intros H. destruct (Hescape e0 H) as [He ->]. auto. }
  destruct (check_rate_limit self (agent_id_of context)) as [[[|] msg]|e0] eqn:Hlimit.
  - discriminate.
  - destruct (api_key_of context) as [key|e0] eqn:Hkey.
    + destruct (fetch_news w key token (py_int (time_time w))) as [response|e0] eqn:Hf.
      * simpl fst. rewrite except_after_fetch. discriminate.
      * simpl fst. intros H. destruct (Hescape e0 H) as [He ->]. eauto 6.
    + simpl fst. intros H. destruct (Hescape e0 H) as [He ->].
      unfold api_key_of, rbind in Hkey.
      destruct context as [c|]; simpl in Hkey.
      * destruct (config c); simpl in Hkey; try (injection Hkey as <-; discriminate).
        discriminate.
      * injection Hkey as <-. discriminate.
  - simpl fst. intros H. destruct (Hescape e0 H) as [He ->]. eauto 6.
Qed.

(** X12.  Articles come only from an answer that is an object with the
    key ["Data"]: on a list, a string or any other answer the output
    carries an error. *)
Theorem arun_articles_need_object (response : pyval) (out : CryptoCompareFetchNewsOutput) :
  receives self w token cfg response ->
  fst (run (_arun self w token cfg kwargs)) = Ok out ->
  error out = None ->
  exists top data, response = PDict top /\ lookup "Data" top = Some data.
Proof.
  intros Hrecv. rewrite (arun_receives self w token cfg kwargs _ Hrecv).
  rewrite except_after_fetch. intros [= <-].
  unfold after_fetch, data_of.
  destruct response as [| | | |s|items|top]; simpl; try discriminate.
  - destruct (substring_of "Data" s); simpl; discriminate.
  - destruct (existsb (eq_str "Data") items); simpl; discriminate.
  - destruct (lookup "Data" top) as [data|] eqn:Hdata; simpl; [|discriminate].
    intros _. now exists top, data.
Qed.

(** X13.  An output without error, once the mapping was reached, means
    that every element of the data is an object that holds all seven
    keys. *)
Theorem arun_success_needs_complete_elements (items : list pyval)
    (out : CryptoCompareFetchNewsOutput) :
  reaches_mapping self w token cfg items ->
  fst (run (_arun self w token cfg kwargs)) = Ok out ->
  error out = None ->
  Forall (fun item => exists fields, item = PDict fields /\ first_missing fields = None)
         items.
Proof.
  intros (response & Hrecv & Hin & Hitems).
  rewrite (arun_receives self w token cfg kwargs _ Hrecv).
  unfold after_fetch. rewrite Hin. simpl. rewrite Hitems. simpl.
  destruct (comprehension to_article items) as [mapped|e] eqn:Hmap; simpl.
  - intros _ _. now apply mapped_elements_complete with (mapped := mapped).
  - destruct (isinstance_Exception e); [|discriminate].
    intros [= <-]. discriminate.
Qed.

(** X14.  Data that is an object with a member is not mapped: the
    comprehension runs over its keys, and subscripting the first key, a
    string, raises the [TypeError] whose text the output carries. *)
Theorem arun_object_data (top rest : list (string * pyval)) (key : string) (v : pyval) :
  receives self w token cfg (PDict top) ->
  lookup "Data" top = Some (PDict ((key, v) :: rest)) ->
  fst (run (_arun self w token cfg kwargs)) =
  Ok {| articles := [];
        error := Some (str_exn (TypeError (NotSubscriptable (PStr key) "id"))) |}.
Proof.
  intros Hrecv Hdata.
  rewrite (arun_receives self w token cfg kwargs _ Hrecv).
  unfold after_fetch, data_of. simpl. rewrite Hdata. reflexivity.
Qed.

(** X15.  An answer that is a list without the element ["Data"] is
    reported with the fixed text, as an object without the key is. *)
Theorem arun_list_answer (items : list pyval) :
  receives self w token cfg (PList items) ->
  ~ In (PStr "Data") items ->
  fst (run (_arun self w token cfg kwargs)) =
  Ok {| articles := [];
        error := Some "Invalid response format from CryptoCompare API" |}.
Proof.
  intros Hrecv Hnot.
  rewrite (arun_receives self w token cfg kwargs _ Hrecv).
  unfold after_fetch. simpl. now rewrite (no_element_Data items Hnot).
Qed.

End Coverage.

(** ** The element expression *)

Section Element.

Context {R : Runtime}.

(** X7.  On an object that lacks some of the seven keys the element
    expression raises the [KeyError] of the first one lacking, in the
    order id, title, body, published_on, url, source, categories, whatever
    the values under the other keys are. *)
Theorem to_article_first_missing_key (fields : list (string * pyval)) (key : string) :
  first_missing fields = Some key ->
  to_article (PDict fields) = Err (KeyError key).
Proof.
  unfold first_missing, article_keys, missing, to_article, py_getitem. cbn [find].
  destruct (lookup "id" fields); [|now intros [= <-]].
  destruct (lookup "title" fields); [|now intros [= <-]].
  destruct (lookup "body" fields); [|now intros [= <-]].
  destruct (lookup "published_on" fields); [|now intros [= <-]].
  destruct (lookup "url" fields); [|now intros [= <-]].
  destruct (lookup "source" fields); [|now intros [= <-]].
  destruct (lookup "categories" fields); [discriminate|now intros [= <-]].
Qed.

(** X8.  The element expression reads the seven keys and nothing else:
    two objects that agree on them give the same article or the same
    exception. *)
Theorem to_article_reads_seven_keys (fields fields' : list (string * pyval)) :
  (forall key, In key article_keys -> lookup key fields = lookup key fields') ->
  to_article (PDict fields) = to_article (PDict fields').
Proof.
  intros Hsame. unfold to_article, py_getitem.
  rewrite (Hsame "id"), (Hsame "title"), (Hsame "body"), (Hsame "published_on"),
    (Hsame "url"), (Hsame "source"), (Hsame "categories");
    try reflexivity; unfold article_keys; simpl; tauto.
Qed.

(** X9.  The categories of a mapped article, joined with [|], give the
    provider's string back; no category contains [|], and there is one
    category more than there are [|] in the string, so at least one. *)
Theorem categories_round_trip (article : pyval) (a : NewsArticle) :
  to_article article = Ok a ->
  exists raw,
    py_getitem article "categories" = Ok (PStr raw) /\
    join "|" (categories a) = raw /\
    Forall (fun c => occurs "|" c = false) (categories a) /\
    length (categories a) = S (count "|" raw).
Proof.
  intros H.
  destruct (to_article_inv article a H) as (fields & raw_id & raw & -> & _ & _ & Hc & _ & ->).
  exists raw. simpl. rewrite Hc.
  repeat split.
  - apply join_split.
  - apply split_clean.
  - apply length_split_from.
Qed.

End Element.

(** ** Further runs on the fixtures *)

Lemma arun_fetch_needs_admission_witness :
  exists c msg,
    context_from_config Fixture.tool tt = Ok (Some c) /\
    check_rate_limit Fixture.tool (Agent.id (agent c)) = Ok (false, msg) /\
    py_get (config c) "api_key" = Ok (PStr "secret") /\
    snd (run (_arun Fixture.tool (Fixture.answering Fixture.three) "BTC" tt [])) =
    all_calls (Agent.id (agent c)) (PStr "secret") "BTC"
      (py_int (time_time (Fixture.answering Fixture.three))).
Proof.
  apply (arun_fetch_needs_admission Fixture.tool (Fixture.answering Fixture.three) "BTC" tt []
           (PStr "secret") "BTC" 1700000000).
  do 3 right. left. reflexivity.
Defined.

Lemma arun_missing_api_key_witness :
  In (Call_fetch_news PNone "BTC" (py_int (time_time (Fixture.answering Fixture.three))))
     (snd (run (_arun Fixture.keyless_tool (Fixture.answering Fixture.three) "BTC" tt []))).
Proof.
  apply (arun_missing_api_key Fixture.keyless_tool (Fixture.answering Fixture.three) "BTC" tt []
           {| agent := Agent.mk (Some "agent-7");
              config := PDict [("enabled", PBool true)] |}
           "" [("enabled", PBool true)]);
    reflexivity.
Defined.

Lemma arun_config_not_an_object_witness :
  run (_arun Fixture.unconfigured_tool (Fixture.answering Fixture.three) "BTC" tt []) =
  (Ok {| articles := [];
         error := Some (str_exn (AttributeError PNone "get")) |},
   [Call_context_from_config; Call_check_rate_limit (Some "agent-7"); Call_time]).
Proof.
  apply (arun_config_not_an_object Fixture.unconfigured_tool
           (Fixture.answering Fixture.three) "BTC" tt []
           {| agent := Agent.mk (Some "agent-7"); config := PNone |} "").
  - reflexivity.
  - reflexivity.
  - intros settings. simpl. discriminate.
Defined.

Lemma arun_empty_data_witness :
  fst (run (_arun Fixture.tool (Fixture.answering Fixture.empty_object_data) "BTC" tt [])) =
  Ok {| articles := []; error := None |}.
Proof.
  apply (arun_empty_data Fixture.tool (Fixture.answering Fixture.empty_object_data)
           "BTC" tt []
           [("Response", PStr "Error"); ("Message", PStr "rate limit"); ("Data", PDict [])]
           (PDict [])).
  - exact (fixture_receives Fixture.empty_object_data).
  - reflexivity.
  - right. left. reflexivity.
Defined.

Lemma fixture_reaches_mapping :
  reaches_mapping Fixture.tool (Fixture.answering Fixture.three) "BTC" tt
    Fixture.three_entries.
Proof.
  exists Fixture.three. split; [exact (fixture_receives Fixture.three)|].
  split; reflexivity.
Qed.

Lemma arun_success_maps_all_witness :
  Forall2 (fun item a => to_article item = Ok a) Fixture.three_entries
    (map spec_article
       [mkProviderArticle (PInt 11) "first" "..." 1699999000 "https://example.org/a"
          "wire" "Blockchain|Mining|Trading";
        mkProviderArticle (PInt 12) "second" "..." 1699999000 "https://example.org/a"
          "wire" "";
        mkProviderArticle (PInt 13) "third" "..." 1699999000 "https://example.org/a"
          "wire" "BTC"]).
Proof.
  apply (arun_success_maps_all Fixture.tool (Fixture.answering Fixture.three) "BTC" tt []
           Fixture.three_entries
           (Output_articles
              (map spec_article
                 [mkProviderArticle (PInt 11) "first" "..." 1699999000
                    "https://example.org/a" "wire" "Blockchain|Mining|Trading";
                  mkProviderArticle (PInt 12) "second" "..." 1699999000
                    "https://example.org/a" "wire" "";
                  mkProviderArticle (PInt 13) "third" "..." 1699999000
                    "https://example.org/a" "wire" "BTC"]))).
  - exact fixture_reaches_mapping.
  - reflexivity.
  - reflexivity.
Defined.

Lemma arun_timestamp_floor_witness :
  (inject_Z 1700000000 <= time_time (Fixture.answering Fixture.three))%Q /\
  (time_time (Fixture.answering Fixture.three) < inject_Z (1700000000 + 1))%Q.
Proof.
  apply (arun_timestamp_floor Fixture.tool (Fixture.answering Fixture.three) "BTC" tt []
           (PStr "secret") "BTC" 1700000000).
  - do 3 right. left. reflexivity.
  - discriminate.
Defined.

Lemma arun_escapes_only_from_collaborators_witness :
  isinstance_Exception Fixture.cancelled = false /\
  (context_from_config Fixture.tool tt = Err Fixture.cancelled \/
   (exists context,
       check_rate_limit Fixture.tool (agent_id_of context) = Err Fixture.cancelled) \/
   (exists api_key,
       fetch_news (Fixture.failing Fixture.cancelled) api_key "BTC"
         (py_int (time_time (Fixture.failing Fixture.cancelled))) = Err Fixture.cancelled)).
Proof.
  apply (arun_escapes_only_from_collaborators Fixture.tool
           (Fixture.failing Fixture.cancelled) "BTC" tt [] Fixture.cancelled).
  reflexivity.
Defined.

Lemma arun_articles_need_object_witness :
  exists top data, Fixture.three = PDict top /\ lookup "Data" top = Some data.
Proof.
  apply (arun_articles_need_object Fixture.tool (Fixture.answering Fixture.three) "BTC" tt []
           Fixture.three
           (Output_articles
              (map spec_article
                 [mkProviderArticle (PInt 11) "first" "..." 1699999000
                    "https://example.org/a" "wire" "Blockchain|Mining|Trading";
                  mkProviderArticle (PInt 12) "second" "..." 1699999000
                    "https://example.org/a" "wire" "";
                  mkProviderArticle (PInt 13) "third" "..." 1699999000
                    "https://example.org/a" "wire" "BTC"]))).
  - exact (fixture_receives Fixture.three).
  - reflexivity.
  - reflexivity.
Defined.

Lemma arun_success_needs_complete_elements_witness :
  Forall (fun item => exists fields, item = PDict fields /\ first_missing fields = None)
         Fixture.three_entries.
Proof.
  apply (arun_success_needs_complete_elements Fixture.tool
           (Fixture.answering Fixture.three) "BTC" tt [] Fixture.three_entries
           (Output_articles
              (map spec_article
                 [mkProviderArticle (PInt 11) "first" "..." 1699999000
                    "https://example.org/a" "wire" "Blockchain|Mining|Trading";
                  mkProviderArticle (PInt 12) "second" "..." 1699999000
                    "https://example.org/a" "wire" "";
                  mkProviderArticle (PInt 13) "third" "..." 1699999000
                    "https://example.org/a" "wire" "BTC"]))).
  - exact fixture_reaches_mapping.
  - reflexivity.
  - reflexivity.
Defined.

Lemma arun_object_data_witness :
  fst (run (_arun Fixture.tool (Fixture.answering Fixture.object_data) "BTC" tt [])) =
  Ok {| articles := [];
        error := Some (str_exn (TypeError (NotSubscriptable (PStr "Response") "id"))) |}.
Proof.
  apply (arun_object_data Fixture.tool (Fixture.answering Fixture.object_data) "BTC" tt []
           [("Data", PDict [("Response", PStr "Error")])] [] "Response" (PStr "Error")).
  - exact (fixture_receives Fixture.object_data).
  - reflexivity.
Defined.

(** The texts of the two outputs above, as CPython words them. *)
Example edge_texts :
  str_exn (AttributeError PNone "get") = "'NoneType' object has no attribute 'get'" /\
  str_exn (TypeError (NotSubscriptable (PStr "Response") "id")) =
  "string indices must be integers, not 'str'".
Proof. split; reflexivity. Qed.

Lemma to_article_first_missing_key_witness :
  to_article (PDict [("id", PInt 12); ("body", PInt 0)]) = Err (KeyError "title").
Proof.
  apply (to_article_first_missing_key [("id", PInt 12); ("body", PInt 0)] "title").
  reflexivity.
Defined.

Lemma to_article_reads_seven_keys_witness :
  to_article Fixture.rich_entry =
  to_article (Fixture.entry 11 "first" (PStr "Blockchain|Mining|Trading")).
Proof.
  apply (to_article_reads_seven_keys
           [("imageurl", PStr "https://example.org/a.png"); ("id", PInt 11);
            ("title", PStr "first"); ("body", PStr "..."); ("lang", PStr "EN");
            ("published_on", PInt 1699999000); ("url", PStr "https://example.org/a");
            ("source", PStr "wire"); ("categories", PStr "Blockchain|Mining|Trading")]
           [("id", PInt 11); ("title", PStr "first"); ("body", PStr "...");
            ("published_on", PInt 1699999000); ("url", PStr "https://example.org/a");
            ("source", PStr "wire"); ("categories", PStr "Blockchain|Mining|Trading")]).
  intros key [<-|[<-|[<-|[<-|[<-|[<-|[<-|[]]]]]]]]; reflexivity.
Defined.

Lemma categories_round_trip_witness :
  exists raw,
    py_getitem (Fixture.entry 11 "first" (PStr "Blockchain|Mining|Trading")) "categories"
    = Ok (PStr raw) /\
    join "|" ["Blockchain"; "Mining"; "Trading"] = raw /\
    Forall (fun c => occurs "|" c = false) ["Blockchain"; "Mining"; "Trading"] /\
    length ["Blockchain"; "Mining"; "Trading"] = S (count "|" raw).
Proof.
  apply (categories_round_trip (Fixture.entry 11 "first" (PStr "Blockchain|Mining|Trading"))
           (mkNewsArticle "11" "first" "..." 1699999000 "https://example.org/a" "wire"
              ["Blockchain"; "Mining"; "Trading"])).
  reflexivity.
Defined.

Lemma arun_list_answer_witness :
  fst (run (_arun Fixture.tool (Fixture.answering (PList [PStr "error"; PInt 429]))
             "BTC" tt [])) =
  Ok {| articles := [];
        error := Some "Invalid response format from CryptoCompare API" |}.
Proof.
  apply (arun_list_answer Fixture.tool (Fixture.answering (PList [PStr "error"; PInt 429]))
           "BTC" tt [] [PStr "error"; PInt 429]).
  - exact (fixture_receives (PList [PStr "error"; PInt 429])).
  - intros [H|[H|[]]]; discriminate.
Defined.
